(** * Spatial Data Platform API: a shallow embedding of [main.py]

    The request handlers of [main.py] are embedded as functions of an
    error-and-state monad over a SQLAlchemy-like session.  The storage
    engine (PostGIS) and the Python libraries the handlers call
    (f-string formatting, shapely, json, datetime) are collaborators: they
    are taken as the fields of two records, so every statement below holds
    for every engine and every runtime. *)

From Stdlib Require Import Floats ZArith.
From stdpp Require Import gmap strings list fin_maps pretty.

Open Scope Z_scope.

(** ** JSON values, as [json] and pydantic hand them to the handlers *)

#[local] Unset Elimination Schemes.
Inductive jvalue : Type :=
  | JNull
  | JBool (b : bool)
  | JInt (n : Z)
  | JFloat (x : float)
  | JStr (s : string)
  | JList (l : list jvalue)
  | JDict (d : list (string * jvalue)).
#[local] Set Elimination Schemes.

(** ** app/schemas/spatial.py

    [PointFeature] and [PolygonFeature] declare the same three fields, and
    the two collections the same two. *)

Record Feature : Type := mkFeature {
  f_type : string;
  f_geometry : gmap string jvalue;
  f_properties : gmap string jvalue
}.

Record FeatureCollection : Type := mkFeatureCollection {
  fc_type : string;
  fc_features : list Feature
}.

Abbreviation PointFeature := Feature (only parsing).
Abbreviation PolygonFeature := Feature (only parsing).
Abbreviation PointFeatureCollection := FeatureCollection (only parsing).
Abbreviation PolygonFeatureCollection := FeatureCollection (only parsing).

(** The two feature kinds; every handler of [main.py] exists once per kind. *)
Inductive kind : Type := Point | Polygon.

Definition type_tag (k : kind) : string :=
  match k with Point => "Point" | Polygon => "Polygon" end.

Definition default_name (k : kind) : string :=
  match k with Point => "Unnamed Point" | Polygon => "Unnamed Polygon" end.

Definition invalid_feature_detail (k : kind) : string :=
  match k with
  | Point => "Invalid feature format. Must be Point type."
  | Polygon => "Invalid feature format. Must be Polygon type."
  end.

Definition not_found_detail (k : kind) : string :=
  match k with Point => "Point not found" | Polygon => "Polygon not found" end.

(** ** Exceptions and results *)

Inductive exn : Type :=
  | HTTPException (status_code : Z) (detail : string)
  | KeyError (key : jvalue)
  | IndexError
  | TypeError
  | ShapelyError
  | IntegrityError
  | DBAPIError.

Inductive result (A : Type) : Type :=
  | Ok (a : A)
  | Raise (e : exn).
Arguments Ok {A} a.
Arguments Raise {A} e.

Definition NotFound (k : kind) : exn := HTTPException 404 (not_found_detail k).
Definition InvalidFeatureType (k : kind) : exn :=
  HTTPException 400 (invalid_feature_detail k).

(** ** The collaborators *)

(** The storage engine: the SQL functions the handlers name, on the
    engine's own geometry values.  Parsing a text may be refused, and a
    predicate may raise instead of answering ([None]). *)
Record SpatialEngine : Type := mkEngine {
  Geometry : Type;
  Geography : Type;
  ST_GeomFromText : string -> option Geometry;
  ST_GeomFromText_srid : string -> Z -> option Geometry;
  ST_SetSRID : Geometry -> Z -> Geometry;
  ST_MakePoint : float -> float -> Geometry;
  as_geography : Geometry -> Geography;
  ST_DWithin : Geography -> Geography -> float -> option bool;
  ST_Within : Geometry -> Geometry -> option bool;
  ST_Intersects : Geometry -> Geometry -> option bool;
  ST_AsText : Geometry -> string;
  ST_AsGeoJSON : Geometry -> string
}.

(** The Python side: [format_value v] is the text an f-string puts for
    [{v}], [shape_wkt g] is [shape(g).wkt] ([None] when shapely raises),
    [json_loads] reads the engine's GeoJSON text and [isoformat] prints a
    timestamp. *)
Record Runtime : Type := mkRuntime {
  format_value : jvalue -> string;
  shape_wkt : gmap string jvalue -> option string;
  json_loads : string -> jvalue;
  isoformat : Z -> string
}.

(** ** app/models/spatial.py

    [PointData] and [PolygonData] have the same columns.  The primary key
    [id] is the key of the table; a row holds the other columns. *)
Record Row (G : Type) : Type := mkRow {
  name : jvalue;
  description : jvalue;
  created_at : Z;
  updated_at : Z;
  geom : G
}.
Arguments mkRow {G} _ _ _ _ _.
Arguments name {G} _.
Arguments description {G} _.
Arguments created_at {G} _.
Arguments updated_at {G} _.
Arguments geom {G} _.

Record Tables (G : Type) : Type := mkTables {
  point_data : gmap Z (Row G);
  polygon_data : gmap Z (Row G)
}.
Arguments mkTables {G} _ _.
Arguments point_data {G} _.
Arguments polygon_data {G} _.

(** The database at rest: the committed rows, which every reader sees, and
    the two id sequences, which no rollback takes back. *)
Record Database (G : Type) : Type := mkDatabase {
  stored : Tables G;
  point_data_id_seq : Z;
  polygon_data_id_seq : Z
}.
Arguments mkDatabase {G} _ _ _.
Arguments stored {G} _.
Arguments point_data_id_seq {G} _.
Arguments polygon_data_id_seq {G} _.

(** A session: the database it is bound to, the rows as its open
    transaction sees them, and how often it has read the clock. *)
Record Session (G : Type) : Type := mkSession {
  db : Database G;
  working : Tables G;
  ticks : nat
}.
Arguments mkSession {G} _ _ _.
Arguments db {G} _.
Arguments working {G} _.
Arguments ticks {G} _.

Definition table {G} (k : kind) (t : Tables G) : gmap Z (Row G) :=
  match k with Point => point_data t | Polygon => polygon_data t end.

Definition set_table {G} (k : kind) (m : gmap Z (Row G)) (t : Tables G) : Tables G :=
  match k with
  | Point => mkTables m (polygon_data t)
  | Polygon => mkTables (point_data t) m
  end.

Definition id_seq {G} (k : kind) (d : Database G) : Z :=
  match k with Point => point_data_id_seq d | Polygon => polygon_data_id_seq d end.

Definition advance_seq {G} (k : kind) (d : Database G) : Database G :=
  match k with
  | Point => mkDatabase (stored d) (point_data_id_seq d + 1) (polygon_data_id_seq d)
  | Polygon => mkDatabase (stored d) (point_data_id_seq d) (polygon_data_id_seq d + 1)
  end.

(** ** The response bodies *)

Record CreatedResponse : Type := mkCreated {
  created_status : string;
  created_ids : list Z
}.

Record UpdatedResponse : Type := mkUpdated {
  updated_status : string;
  updated_id : Z
}.

Record DeletedResponse : Type := mkDeleted {
  deleted_status : string;
  deleted_id : Z
}.

Record FeatureProperties : Type := mkProperties {
  p_id : Z;
  p_name : jvalue;
  p_description : jvalue;
  p_created_at : string;
  p_updated_at : string
}.

Record FeatureOut : Type := mkFeatureOut {
  o_type : string;
  o_geometry : jvalue;
  o_properties : FeatureProperties
}.

Record CollectionOut : Type := mkCollectionOut {
  c_type : string;
  c_features : list FeatureOut
}.

(** ** Python values: subscripting and comparison with a string *)

(** [v[i]] for a literal index [i]: lists and strings are indexed, a dict
    parsed from JSON has string keys only, and the other values are not
    subscriptable. *)
Definition py_getitem (v : jvalue) (i : nat) : result jvalue :=
  match v with
  | JList l => match l !! i with Some x => Ok x | None => Raise IndexError end
  | JStr s =>
      match String.get i s with
      | Some c => Ok (JStr (String c EmptyString))
      | None => Raise IndexError
      end
  | JDict _ => Raise (KeyError (JInt (Z.of_nat i)))
  | JNull | JBool _ | JInt _ | JFloat _ => Raise TypeError
  end.

(** [d[key]] on a dict. *)
Definition dict_getitem (d : gmap string jvalue) (key : string) : result jvalue :=
  match d !! key with Some v => Ok v | None => Raise (KeyError (JStr key)) end.

(** [d.get(key, dflt)]. *)
Definition dict_get (d : gmap string jvalue) (key : string) (dflt : jvalue) : jvalue :=
  match d !! key with Some v => v | None => dflt end.

(** [v != s] for a string [s]: only the string [s] itself equals it. *)
Definition ne_str (v : jvalue) (s : string) : bool :=
  match v with JStr s' => negb (String.eqb s' s) | _ => true end.

(** [SELECT ... WHERE p]: the rows of [l] that [p] accepts, in the order of
    [l]; the statement fails when [p] raises on a row. *)
Fixpoint select {A} (p : A -> option bool) (l : list A) : option (list A) :=
  match l with
  | [] => Some []
  | x :: l' =>
      match p x with
      | None => None
      | Some b =>
          match select p l' with
          | None => None
          | Some r => Some (if b then x :: r else r)
          end
      end
  end.

(** Sequencing of computations that may raise and touch no session. *)
Definition rbind {A B} (r : result A) (f : A -> result B) : result B :=
  match r with Ok a => f a | Raise e => Raise e end.

Notation "'let+' x ':=' r 'in' f" := (rbind r (fun x => f))
  (at level 10, x pattern, r at level 100, f at level 200).

Section Handlers.

Context (E : SpatialEngine) (R : Runtime).

(** The successive readings of the clock during one request. *)
Variable now : nat -> Z.

Abbreviation row := (Row (Geometry E)).
Abbreviation session := (Session (Geometry E)).
Abbreviation database := (Database (Geometry E)).

(** *** The monad of a handler: it may raise, and the session outlives the
    exception (the dependency closes it afterwards). *)
Definition M (A : Type) : Type := session -> result A * session.

Definition ret {A} (a : A) : M A := fun s => (Ok a, s).

Definition raise {A} (e : exn) : M A := fun s => (Raise e, s).

Definition bind {A B} (m : M A) (f : A -> M B) : M B :=
  fun s =>
    match m s with
    | (Ok a, s') => f a s'
    | (Raise e, s') => (Raise e, s')
    end.

Definition lift {A} (r : result A) : M A := fun s => (r, s).

Notation "'let*' x ':=' m 'in' f" := (bind m (fun x => f))
  (at level 10, x pattern, m at level 100, f at level 200).
Notation "m ';;' f" := (bind m (fun _ => f))
  (at level 100, f at level 200, right associativity, only parsing).

(** *** The session operations the handlers use *)

(** [SessionLocal()]: a new session whose transaction starts from the
    committed rows. *)
Definition SessionLocal (d : database) : session := mkSession d (stored d) 0.

(** [db.close()]: the open transaction is rolled back; what remains is the
    database. *)
Definition close (s : session) : database := db s.

(** [datetime.utcnow()]. *)
Definition utcnow : M Z :=
  fun s => (Ok (now (ticks s)), mkSession (db s) (working s) (S (ticks s))).

(** [db.query(T).filter(T.id == i).first()]. *)
Definition query_first (k : kind) (i : Z) : M (option row) :=
  fun s => (Ok (table k (working s) !! i), s).

(** [db.query(T).filter(p).all()] and [db.query(T).all()]. *)
Definition query_filter (k : kind) (p : Z * row -> option bool) : M (list (Z * row)) :=
  fun s =>
    match select p (map_to_list (table k (working s))) with
    | Some l => (Ok l, s)
    | None => (Raise DBAPIError, s)
    end.

Definition query_all (k : kind) : M (list (Z * row)) :=
  fun s => (Ok (map_to_list (table k (working s))), s).

(** [db.add(T(name, description, geom=ST_GeomFromText(wkt, 4326)));
    db.flush()]: the column defaults read the clock, the engine builds the
    geometry, the sequence gives the id, and the row is inserted in the
    open transaction.  The id is the result ([db_obj.id]). *)
Definition add_flush (k : kind) (nm descr : jvalue) (wkt : string) : M Z :=
  let* created := utcnow in
  let* updated := utcnow in
  fun s =>
    match ST_GeomFromText_srid E wkt 4326 with
    | None => (Raise DBAPIError, s)
    | Some g =>
        let i := id_seq k (db s) in
        let s' := mkSession (advance_seq k (db s)) (working s) (ticks s) in
        match table k (working s) !! i with
        | Some _ => (Raise IntegrityError, s')
        | None =>
            (Ok i,
             mkSession (db s')
               (set_table k (<[i := mkRow nm descr created updated g]> (table k (working s)))
                  (working s))
               (ticks s'))
        end
    end.

(** The [UPDATE] that [db.commit()] flushes for a modified object. *)
Definition flush_update (k : kind) (i : Z) (old : row) (nm descr : jvalue)
    (wkt : string) (updated : Z) : M unit :=
  fun s =>
    match ST_GeomFromText_srid E wkt 4326 with
    | None => (Raise DBAPIError, s)
    | Some g =>
        (Ok tt,
         mkSession (db s)
           (set_table k
              (<[i := mkRow nm descr (created_at old) updated g]> (table k (working s)))
              (working s))
           (ticks s))
    end.

(** [db.delete(obj)], flushed by the commit that follows. *)
Definition flush_delete (k : kind) (i : Z) : M unit :=
  fun s =>
    (Ok tt,
     mkSession (db s) (set_table k (delete i (table k (working s))) (working s)) (ticks s)).

(** [db.commit()]: the rows of the transaction become the committed rows. *)
Definition commit : M unit :=
  fun s =>
    (Ok tt,
     mkSession
       (mkDatabase (working s) (point_data_id_seq (db s)) (polygon_data_id_seq (db s)))
       (working s) (ticks s)).

(** [get_db]: a request opens a session, runs the handler and closes the
    session on every exit path. *)
Definition run_request {A} (h : M A) (d : database) : result A * database :=
  let (r, s) := h (SessionLocal d) in (r, close s).

(** *** The checks and conversions shared by the handlers *)

(** [if feature.type != "Feature" or feature.geometry["type"] != tag: raise
    HTTPException(400)]; the [or] reads the geometry only when the first
    test is false, and the subscript raises [KeyError] on a missing key. *)
Definition check_feature (k : kind) (feature : Feature) : result unit :=
  if negb (String.eqb (f_type feature) "Feature") then Raise (InvalidFeatureType k)
  else
    let+ t := dict_getitem (f_geometry feature) "type" in
    if ne_str t (type_tag k) then Raise (InvalidFeatureType k) else Ok tt.

(** The geometry text of a feature: [f"POINT({coords[0]} {coords[1]})"]
    for a point, [shape(feature.geometry).wkt] for a polygon. *)
Definition wkt_of (k : kind) (geometry : gmap string jvalue) : result string :=
  match k with
  | Point =>
      let+ coords := dict_getitem geometry "coordinates" in
      let+ c0 := py_getitem coords 0 in
      let+ c1 := py_getitem coords 1 in
      Ok ("POINT(" +:+ format_value R c0 +:+ " " +:+ format_value R c1 +:+ ")")
  | Polygon =>
      match shape_wkt R geometry with
      | Some w => Ok w
      | None => Raise ShapelyError
      end
  end.

(** The feature dict the read handlers build from a row. *)
Definition to_feature (p : Z * row) : FeatureOut :=
  mkFeatureOut "Feature"
    (json_loads R (ST_AsGeoJSON E (geom p.2)))
    (mkProperties p.1 (name p.2) (description p.2)
       (isoformat R (created_at p.2)) (isoformat R (updated_at p.2))).

Definition to_collection (rows : list (Z * row)) : CollectionOut :=
  mkCollectionOut "FeatureCollection" (to_feature <$> rows).

(** *** POST /api/points, /api/polygons *)

(** The [for feature in data.features] loop, [created] being the list of
    ids appended so far. *)
Fixpoint create_loop (k : kind) (features : list Feature) (created : list Z)
    : M (list Z) :=
  match features with
  | [] => ret created
  | feature :: rest =>
      lift (check_feature k feature) ;;
      let nm := dict_get (f_properties feature) "name" (JStr (default_name k)) in
      let descr := dict_get (f_properties feature) "description" (JStr "") in
      let* wkt := lift (wkt_of k (f_geometry feature)) in
      let* i := add_flush k nm descr wkt in
      create_loop k rest (created ++ [i])
  end.

Definition create_features (k : kind) (data : FeatureCollection) : M CreatedResponse :=
  if negb (String.eqb (fc_type data) "FeatureCollection") then
    raise (HTTPException 400 "Invalid GeoJSON format. Must be a FeatureCollection.")
  else
    let* created := create_loop k (fc_features data) [] in
    commit ;;
    ret (mkCreated "success" created).

Definition create_points := create_features Point.
Definition create_polygons := create_features Polygon.

(** *** GET /api/points, /api/polygons and GET by id *)

Definition get_features (k : kind) : M CollectionOut :=
  let* rows := query_all k in
  ret (to_collection rows).

Definition get_feature (k : kind) (i : Z) : M FeatureOut :=
  let* found := query_first k i in
  match found with
  | None => raise (NotFound k)
  | Some r => ret (to_feature (i, r))
  end.

Definition get_points := get_features Point.
Definition get_polygons := get_features Polygon.
Definition get_point := get_feature Point.
Definition get_polygon := get_feature Polygon.

(** *** PUT /api/points/{id}, /api/polygons/{id} *)

Definition update_feature (k : kind) (i : Z) (feature : Feature) : M UpdatedResponse :=
  let* found := query_first k i in
  match found with
  | None => raise (NotFound k)
  | Some r =>
      lift (check_feature k feature) ;;
      let nm :=
        match f_properties feature !! "name" with Some v => v | None => name r end in
      let descr :=
        match f_properties feature !! "description" with
        | Some v => v
        | None => description r
        end in
      let* wkt := lift (wkt_of k (f_geometry feature)) in
      let* t := utcnow in
      flush_update k i r nm descr wkt t ;;
      commit ;;
      ret (mkUpdated "success" i)
  end.

Definition update_point := update_feature Point.
Definition update_polygon := update_feature Polygon.

(** *** DELETE /api/points/{id}, /api/polygons/{id} *)

Definition delete_feature (k : kind) (i : Z) : M DeletedResponse :=
  let* found := query_first k i in
  match found with
  | None => raise (NotFound k)
  | Some _ =>
      flush_delete k i ;;
      commit ;;
      ret (mkDeleted "success" i)
  end.

Definition delete_point := delete_feature Point.
Definition delete_polygon := delete_feature Polygon.

(** *** The spatial queries *)

(** [ST_DWithin(geom::geography,
      ST_SetSRID(ST_MakePoint(:lon, :lat), 4326)::geography, :distance)]. *)
Definition dwithin_point (lon lat distance : float) (p : Z * row) : option bool :=
  ST_DWithin E (as_geography E (geom p.2))
    (as_geography E (ST_SetSRID E (ST_MakePoint E lon lat) 4326)) distance.

Definition points_within_distance (lat lon distance : float) : M CollectionOut :=
  let* points := query_filter Point (dwithin_point lon lat distance) in
  ret (to_collection points).

Definition points_in_polygon (polygon_id : Z) : M CollectionOut :=
  let* found := query_first Polygon polygon_id in
  match found with
  | None => raise (NotFound Polygon)
  | Some polygon =>
      let* points :=
        query_filter Point (fun p => ST_Within E (geom p.2) (geom polygon)) in
      ret (to_collection points)
  end.

(** The distance is the literal [1.0] of the query text. *)
Definition polygons_containing_point (lat lon : float) : M CollectionOut :=
  let* polygons := query_filter Polygon (dwithin_point lon lat 1%float) in
  ret (to_collection polygons).

(** [PolygonData.id != polygon_id AND
     ST_Intersects(geom, ST_SetSRID(ST_GeomFromText(:wkt), 4326))], where
    [:wkt] is [ST_AsText] of the source polygon's geometry.  The second
    argument does not depend on the row, so it is built once. *)
Definition overlaps (polygon_id : Z) (source : Geometry E) (p : Z * row) : option bool :=
  if Z.eqb p.1 polygon_id then Some false
  else ST_Intersects E (geom p.2) (ST_SetSRID E source 4326).

Definition overlapping_polygons (polygon_id : Z) : M CollectionOut :=
  let* found := query_first Polygon polygon_id in
  match found with
  | None => raise (NotFound Polygon)
  | Some polygon =>
      let wkt := ST_AsText E (geom polygon) in
      match ST_GeomFromText E wkt with
      | None => raise DBAPIError
      | Some source =>
          let* polygons := query_filter Polygon (overlaps polygon_id source) in
          ret (to_collection polygons)
      end
  end.

End Handlers.

Arguments SessionLocal {E} d.
Arguments close {E} s.
Arguments run_request {E A} h d.

(** ** A small engine and runtime, to run the handlers on concrete data

    [text_engine] keeps the text of a geometry as its value and answers
    every predicate by comparing texts; it refuses the empty text.
    [text_runtime] prints integers and strings. *)
Definition text_engine : SpatialEngine := {|
  Geometry := string;
  Geography := string;
  ST_GeomFromText := fun w => if String.eqb w "" then None else Some w;
  ST_GeomFromText_srid := fun w _ => if String.eqb w "" then None else Some w;
  ST_SetSRID := fun g _ => g;
  ST_MakePoint := fun _ _ => "POINT(0 0)";
  as_geography := fun g => g;
  ST_DWithin := fun a b _ => Some (String.eqb a b);
  ST_Within := fun a b => Some (String.eqb a b);
  ST_Intersects := fun a b => Some (String.eqb a b);
  ST_AsText := fun g => g;
  ST_AsGeoJSON := fun g => g
|}.

Definition text_runtime : Runtime := {|
  format_value := fun v =>
    match v with JInt n => pretty n | JStr s => s | _ => "?" end;
  shape_wkt := fun g =>
    match g !! "coordinates" with
    | Some (JStr w) => Some w
    | _ => None
    end;
  json_loads := JStr;
  isoformat := pretty
|}.

Definition empty_db : Database (Geometry text_engine) := mkDatabase (mkTables ∅ ∅) 1 1.

Definition point_at (x y : Z) (nm : string) : Feature :=
  mkFeature "Feature"
    {[ "type" := JStr "Point"; "coordinates" := JList [JInt x; JInt y] ]}
    {[ "name" := JStr nm ]}.

Definition polygon_of (w : string) : Feature :=
  mkFeature "Feature"
    {[ "type" := JStr "Polygon"; "coordinates" := JStr w ]} ∅.

(** The clock of the examples: the n-th reading is [100 + n]. *)
Definition clock (n : nat) : Z := 100 + Z.of_nat n.

(** A point feature without a name. *)
Definition unnamed_point : Feature :=
  mkFeature "Feature"
    {[ "type" := JStr "Point"; "coordinates" := JList [JInt 1; JInt 2] ]} ∅.

(** Three features posted to /api/points, the second one a polygon. *)
Definition mixed_batch : FeatureCollection :=
  mkFeatureCollection "FeatureCollection"
    [point_at 0 0 "a"; polygon_of "POLYGON((0 0,1 0,1 1,0 0))"; point_at 1 2 "b"].

Definition point_batch : FeatureCollection :=
  mkFeatureCollection "FeatureCollection" [point_at 0 0 "a"; unnamed_point].

(** A database with one point, and one with three polygons of which the
    first two have the same text. *)
Definition one_point_db : Database (Geometry text_engine) :=
  mkDatabase
    (mkTables {[ 1 := mkRow (JStr "a") (JStr "first") 100 101 "POINT(0 0)" ]} ∅) 2 1.

(** [one_point_db] once its point is deleted: the sequence stays at 2. *)
Definition after_delete_db : Database (Geometry text_engine) :=
  mkDatabase (mkTables ∅ ∅) 2 1.


(** ** The vocabulary of the statements *)

(** A feature that a create or update of kind [k] rejects as malformed: its
    type tag is not ["Feature"], or its geometry has a type other than the
    kind's. *)
Definition invalid_feature (k : kind) (f : Feature) : Prop :=
  f_type f ≠ "Feature" ∨
  ∃ t, f_geometry f !! "type" = Some t ∧ t ≠ JStr (type_tag k).

(** The row a create of kind [k] inserts for feature [f], once the engine
    has built the geometry [g] and the clock has given [t1] and [t2]. *)
Definition created_row {G} (k : kind) (f : Feature) (g : G) (t1 t2 : Z) : Row G :=
  mkRow (dict_get (f_properties f) "name" (JStr (default_name k)))
    (dict_get (f_properties f) "description" (JStr "")) t1 t2 g.


(** The id sequence of kind [k] is ahead of every id in the table, as it is
    in a database whose ids all came from the sequence. *)
Definition seq_ahead {G} (k : kind) (t : Tables G) (next : Z) : Prop :=
  ∀ i, next ≤ i → table k t !! i = None.

(** Both id sequences are ahead of their tables. *)
Definition well_formed {G} (d : Database G) : Prop :=
  ∀ k, seq_ahead k (stored d) (id_seq k d).


Definition point_without_coordinates : Feature :=
  mkFeature "Feature" {[ "type" := JStr "Point" ]} ∅.

(** The same for a session, on the rows of its transaction and on the
    committed rows. *)
Definition session_ahead {G} (s : Session G) : Prop :=
  ∀ k, seq_ahead k (working s) (id_seq k (db s)) ∧
       seq_ahead k (stored (db s)) (id_seq k (db s)).

(** The ids a collection lists, in its order. *)
Definition listed_ids (c : CollectionOut) : list Z :=
  (λ f, p_id (o_properties f)) <$> c_features c.

(** ** tests/test.py: [cleanup_tests]

    The script lists the features of a kind with GET and sends one DELETE
    for the id of each listed feature, first for the points and then for
    the polygons.  The result is the list of the answers and the database
    the requests leave. *)
Definition cleanup_kind (E : SpatialEngine) (R : Runtime) (k : kind)
    (d : Database (Geometry E)) : list (result DeletedResponse) * Database (Geometry E) :=
  match run_request (get_features E R k) d with
  | (Ok listing, d0) =>
      foldl
        (λ acc feature,
           let (r, d') :=
             run_request (delete_feature E k (p_id (o_properties feature))) acc.2 in
           (acc.1 ++ [r], d'))
        ([], d0) (c_features listing)
  | (Raise _, d0) => ([], d0)
  end.

Definition cleanup_tests (E : SpatialEngine) (R : Runtime) (d : Database (Geometry E))
    : list (result DeletedResponse) * Database (Geometry E) :=
  let (answers1, d1) := cleanup_kind E R Point d in
  let (answers2, d2) := cleanup_kind E R Polygon d1 in
  (answers1 ++ answers2, d2).

(** * Properties *)

(** ** Values and tables *)

Lemma ne_str_true (v : jvalue) (s : string) : v ≠ JStr s → ne_str v s = true.
Proof.
  destruct v as [| | | |s'| |]; simpl; try done.
  intros Hne. destruct (String.eqb s' s) eqn:Heq; [|done].
  apply String.eqb_eq in Heq. congruence.
Qed.

Lemma table_set_table {G} (k : kind) (m : gmap Z (Row G)) (t : Tables G) :
  table k (set_table k m t) = m.
Proof. by destruct k. Qed.

Lemma stored_advance_seq {G} (k : kind) (d : Database G) :
  stored (advance_seq k d) = stored d.
Proof. by destruct k. Qed.

Lemma id_seq_advance_seq {G} (k : kind) (d : Database G) :
  id_seq k (advance_seq k d) = id_seq k d + 1.
Proof. by destruct k. Qed.

(** ** [select] *)



Section Theory.

Context (E : SpatialEngine) (R : Runtime).
Variable now : nat → Z.

Abbreviation row := (Row (Geometry E)).
Abbreviation session := (Session (Geometry E)).
Abbreviation database := (Database (Geometry E)).

(** ** The session operations *)

(** What one [db.add; db.flush()] does when it returns, and that it never
    touches the committed rows. *)
Lemma add_flush_Ok (k : kind) (nm descr : jvalue) (wkt : string) (s s' : session) (i : Z) :
  add_flush E now k nm descr wkt s = (Ok i, s') →
  i = id_seq k (db s) ∧
  db s' = advance_seq k (db s) ∧
  table k (working s) !! i = None ∧
  ∃ g, ST_GeomFromText_srid E wkt 4326 = Some g ∧
    working s' =
      set_table k
        (<[i := mkRow nm descr (now (ticks s)) (now (S (ticks s))) g]> (table k (working s)))
        (working s).
Proof.
  unfold add_flush, bind, utcnow; simpl.
  destruct (ST_GeomFromText_srid E wkt 4326) as [g|]; [|done].
  destruct (table k (working s) !! id_seq k (db s)) eqn:Hfree; [done|].
  intros [= <- <-]; simpl. eauto 10.
Qed.

Lemma add_flush_stored (k : kind) (nm descr : jvalue) (wkt : string) (s : session) :
  stored (db (add_flush E now k nm descr wkt s).2) = stored (db s).
Proof.
  unfold add_flush, bind, utcnow; simpl.
  destruct (ST_GeomFromText_srid E wkt 4326) as [g|]; [|done].
  destruct (table k (working s) !! id_seq k (db s));
    simpl; apply stored_advance_seq.
Qed.


(** ** createMany: the loop never commits *)

Lemma create_loop_stored (k : kind) (features : list Feature) :
  ∀ (created : list Z) (s : session),
    stored (db (create_loop E R now k features created s).2) = stored (db s).
Proof.
  induction features as [|f rest IH]; intros created s; simpl; [done|].
  unfold bind, lift.
  destruct (check_feature k f); [|done].
  destruct (wkt_of R k (f_geometry f)) as [wkt|]; [|done].
  match goal with
  | |- context [add_flush E now k ?nm ?descr wkt s] =>
      pose proof (add_flush_stored k nm descr wkt s) as Hst;
      destruct (add_flush E now k nm descr wkt s) as [[i|e] s1]
  end; simpl in *; [by rewrite IH|done].
Qed.

Lemma check_feature_invalid (k : kind) (f : Feature) :
  invalid_feature k f → check_feature k f = Raise (InvalidFeatureType k).
Proof.
  unfold check_feature, dict_getitem.
  destruct (String.eqb (f_type f) "Feature") eqn:Hty; simpl; [|done].
  apply String.eqb_eq in Hty.
  intros [Hne|(t & Ht & Hne)]; [done|].
  rewrite Ht; simpl. by rewrite ne_str_true.
Qed.

Lemma create_loop_invalid (k : kind) (features : list Feature) :
  Exists (invalid_feature k) features →
  ∀ (created : list Z) (s : session),
    ∃ e, (create_loop E R now k features created s).1 = Raise e.
Proof.
  induction features as [|f rest IH]; intros Hinv created s.
  { by apply Exists_nil in Hinv. }
  simpl. unfold bind, lift.
  destruct (check_feature k f) as [[]|e] eqn:Hchk; [|by exists e].
  apply Exists_cons in Hinv as [Hf|Hrest].
  { apply check_feature_invalid in Hf. congruence. }
  destruct (wkt_of R k (f_geometry f)) as [wkt|e]; [|by exists e].
  match goal with
  | |- context [add_flush E now k ?nm ?descr wkt s] =>
      destruct (add_flush E now k nm descr wkt s) as [[i|e] s1]
  end; [by apply IH|by exists e].
Qed.

(** C1. A batch with an invalid feature commits nothing: the request
    raises, the database it leaves holds exactly the rows it held before,
    and however far the loop has come, the committed rows are still the old
    ones, so no reader sees a part of the batch. *)
Theorem create_many_atomic (k : kind) (data : FeatureCollection) (d : database) :
  Exists (invalid_feature k) (fc_features data) →
  (∃ e d', run_request (create_features E R now k data) d = (Raise e, d') ∧
           stored d' = stored d) ∧
  ∀ n, stored (db (create_loop E R now k (take n (fc_features data)) []
                     (SessionLocal d)).2) = stored d.
Proof.
  intros Hinv. split; [|intros n; by rewrite create_loop_stored].
  unfold run_request, create_features.
  destruct (negb (String.eqb (fc_type data) "FeatureCollection")).
  { exists (HTTPException 400 "Invalid GeoJSON format. Must be a FeatureCollection."), d.
    done. }
  unfold bind.
  destruct (create_loop_invalid k _ Hinv [] (SessionLocal d)) as [e He].
  pose proof (create_loop_stored k (fc_features data) [] (SessionLocal d)) as Hst.
  destruct (create_loop E R now k (fc_features data) [] (SessionLocal d)) as [r s'].
  simpl in He, Hst. subst r. by exists e, (close s').
Qed.

(** ** createMany: what a batch that returns has done *)

Lemma check_feature_valid (k : kind) (f : Feature) :
  f_type f = "Feature" →
  f_geometry f !! "type" = Some (JStr (type_tag k)) →
  check_feature k f = Ok tt.
Proof.
  intros Hty Hg. unfold check_feature, dict_getitem.
  rewrite Hty, Hg; simpl. by rewrite String.eqb_refl.
Qed.

Lemma create_loop_Ok (k : kind) (features : list Feature) :
  ∀ (created ids : list Z) (s s' : session),
    create_loop E R now k features created s = (Ok ids, s') →
    ids = created ++ seqZ (id_seq k (db s)) (Z.of_nat (length features)) ∧
    (∀ i, i < id_seq k (db s) → table k (working s') !! i = table k (working s) !! i) ∧
    ∀ (j : nat) (f : Feature),
      features !! j = Some f →
      ∃ wkt g,
        wkt_of R k (f_geometry f) = Ok wkt ∧
        ST_GeomFromText_srid E wkt 4326 = Some g ∧
        table k (working s') !! (id_seq k (db s) + Z.of_nat j) =
          Some (created_row k f g (now (ticks s + 2 * j)%nat) (now (ticks s + 2 * j + 1)%nat)).
Proof.
  induction features as [|f rest IH]; intros created ids s s'; simpl.
  { unfold ret. intros [= <- <-]. rewrite app_nil_r. by split_and!. }
  unfold bind, lift.
  destruct (check_feature k f) as [[]|]; [|done].
  destruct (wkt_of R k (f_geometry f)) as [wkt|] eqn:Hwkt; [|done].
  match goal with
  | |- context [add_flush E now k ?nm ?descr wkt s] =>
      destruct (add_flush E now k nm descr wkt s) as [[i|] s1] eqn:Hadd
  end; [|done].
  intros Hrest.
  pose proof Hadd as Hticks.
  apply add_flush_Ok in Hadd as (-> & Hdb & Hfree & g & Hg & Hwork).
  assert (ticks s1 = S (S (ticks s))) as Ht1.
  { revert Hticks. unfold add_flush, bind, utcnow; simpl. rewrite Hg, Hfree.
    by intros [= <-]. }
  apply IH in Hrest as (-> & Hold & Hnew).
  rewrite Hdb, id_seq_advance_seq in Hold, Hnew.
  assert (∀ i, i ≠ id_seq k (db s) →
            table k (working s1) !! i = table k (working s) !! i) as Hother.
  { intros i Hi. rewrite Hwork, table_set_table. by rewrite lookup_insert_ne. }
  assert (table k (working s') !! id_seq k (db s) =
            Some (created_row k f g (now (ticks s)) (now (S (ticks s))))) as Hhere.
  { rewrite Hold by lia. rewrite Hwork, table_set_table. by rewrite lookup_insert_eq. }
  split_and!.
  - rewrite Hdb, id_seq_advance_seq, <- app_assoc. f_equal. simpl.
    rewrite (seqZ_cons (id_seq k (db s))) by lia. do 2 f_equal; lia.
  - intros i Hi. rewrite Hold by lia. apply Hother. lia.
  - intros [|j] f' Hf'; simpl in Hf'.
    + injection Hf' as <-. exists wkt, g. split_and!; [done..|].
      rewrite Z.add_0_r, Hhere. do 3 f_equal; lia.
    + destruct (Hnew j f' Hf') as (wkt' & g' & Hw' & Hg' & Hrow).
      exists wkt', g'. split_and!; [done..|].
      replace (id_seq k (db s) + Z.of_nat (S j)) with (id_seq k (db s) + 1 + Z.of_nat j) by lia.
      rewrite Hrow, Ht1. do 3 f_equal; lia.
Qed.

(** ** createMany: a batch of valid features returns *)


Lemma create_features_Ok (k : kind) (data : FeatureCollection) (d d' : database)
    (resp : CreatedResponse) :
  run_request (create_features E R now k data) d = (Ok resp, d') →
  resp = mkCreated "success" (seqZ (id_seq k d) (Z.of_nat (length (fc_features data)))) ∧
  ∀ (j : nat) (f : Feature),
    fc_features data !! j = Some f →
    ∃ wkt g,
      wkt_of R k (f_geometry f) = Ok wkt ∧
      ST_GeomFromText_srid E wkt 4326 = Some g ∧
      table k (stored d') !! (id_seq k d + Z.of_nat j) =
        Some (created_row k f g (now (2 * j)%nat) (now (2 * j + 1)%nat)).
Proof.
  unfold run_request, create_features.
  destruct (negb (String.eqb (fc_type data) "FeatureCollection")); [done|].
  unfold bind at 1.
  destruct (create_loop E R now k (fc_features data) [] (SessionLocal d))
    as [[ids|] s'] eqn:Hloop; [|done].
  apply create_loop_Ok in Hloop as (-> & _ & Hnew).
  unfold bind, commit, ret, close; simpl. intros [= <- <-]; simpl.
  split; [done|]. exact Hnew.
Qed.



(** ** update *)

Lemma update_feature_missing (k : kind) (i : Z) (feature : Feature) (d : database) :
  table k (stored d) !! i = None →
  run_request (update_feature E R now k i feature) d = (Raise (NotFound k), d).
Proof.
  intros Hnone. unfold run_request, update_feature, bind, query_first; simpl.
  by rewrite Hnone.
Qed.


(** C10. An update of an id that is not there raises NotFound (404)
    whatever the feature is: the row is looked up before the feature is
    checked, so a wrong tag on a missing id gives 404 and not 400. *)
Theorem update_missing_not_found_first (k : kind) (i : Z) (feature : Feature) (d : database) :
  table k (stored d) !! i = None →
  run_request (update_feature E R now k i feature) d =
    (Raise (HTTPException 404 (not_found_detail k)), d).
Proof. apply update_feature_missing. Qed.

(** ** delete *)

Lemma delete_feature_Ok (k : kind) (i : Z) (d d1 : database) (resp : DeletedResponse) :
  run_request (delete_feature E k i) d = (Ok resp, d1) →
  is_Some (table k (stored d) !! i) ∧
  stored d1 = set_table k (delete i (table k (stored d))) (stored d).
Proof.
  unfold run_request, delete_feature, bind, query_first; simpl.
  destruct (table k (stored d) !! i) as [r|]; [|done].
  unfold flush_delete, commit, ret, close; simpl.
  intros [= <- <-]. eauto.
Qed.

(** C8. After a delete that returned, the row is gone from the table (with
    nothing left in its place) and the other rows are as before; a second
    delete of the same id, a get of it and an update of it with any feature
    all raise NotFound (404). *)
Theorem delete_then_not_found (k : kind) (i : Z) (d d1 : database) (resp : DeletedResponse) :
  run_request (delete_feature E k i) d = (Ok resp, d1) →
  table k (stored d1) !! i = None ∧
  (∀ j, j ≠ i → table k (stored d1) !! j = table k (stored d) !! j) ∧
  run_request (delete_feature E k i) d1 =
    (Raise (HTTPException 404 (not_found_detail k)), d1) ∧
  run_request (get_feature E R k i) d1 =
    (Raise (HTTPException 404 (not_found_detail k)), d1) ∧
  ∀ feature,
    run_request (update_feature E R now k i feature) d1 =
      (Raise (HTTPException 404 (not_found_detail k)), d1).
Proof.
  intros Hdel. apply delete_feature_Ok in Hdel as [_ Hst].
  assert (table k (stored d1) !! i = None) as Hgone.
  { rewrite Hst, table_set_table. apply lookup_delete_eq. }
  split_and!; [done| | | |].
  - intros j Hj. rewrite Hst, table_set_table. by apply lookup_delete_ne.
  - unfold run_request, delete_feature, bind, query_first; simpl. by rewrite Hgone.
  - unfold run_request, get_feature, bind, query_first; simpl. by rewrite Hgone.
  - intros feature. by apply update_feature_missing.
Qed.

(** ** The spatial queries *)







End Theory.

(** * The statements on concrete data *)

Lemma create_many_atomic_witness :
  (∃ e d', run_request (create_points text_engine text_runtime clock mixed_batch) empty_db
             = (Raise e, d') ∧ stored d' = stored empty_db) ∧
  ∀ n, stored (db (create_loop text_engine text_runtime clock Point
                     (take n (fc_features mixed_batch)) [] (@SessionLocal text_engine empty_db)).2)
       = stored empty_db.
Proof.
  apply (create_many_atomic text_engine text_runtime clock Point mixed_batch empty_db).
  apply Exists_cons_tl, Exists_cons_hd. right.
  exists (JStr "Polygon"). split; [by vm_compute|discriminate].
Defined.




Lemma update_missing_not_found_first_witness :
  run_request (update_point text_engine text_runtime clock 7
                 (polygon_of "POLYGON((0 0,1 0,1 1,0 0))")) one_point_db =
    (Raise (HTTPException 404 "Point not found"), one_point_db).
Proof.
  apply (update_missing_not_found_first text_engine text_runtime clock Point 7
           (polygon_of "POLYGON((0 0,1 0,1 1,0 0))") one_point_db).
  by vm_compute.
Defined.

Lemma delete_then_not_found_witness :
  table Point (stored after_delete_db) !! 1 = None ∧
  (∀ j, j ≠ 1 →
        table Point (stored after_delete_db) !! j = table Point (stored one_point_db) !! j) ∧
  run_request (delete_point text_engine 1) after_delete_db =
    (Raise (HTTPException 404 "Point not found"), after_delete_db) ∧
  run_request (get_point text_engine text_runtime 1) after_delete_db =
    (Raise (HTTPException 404 "Point not found"), after_delete_db) ∧
  ∀ feature,
    run_request (update_point text_engine text_runtime clock 1 feature) after_delete_db =
      (Raise (HTTPException 404 "Point not found"), after_delete_db).
Proof.
  apply (delete_then_not_found text_engine text_runtime clock Point 1 one_point_db
           after_delete_db (mkDeleted "success" 1)).
  by vm_compute.
Defined.





(** * Further properties of the handlers *)

Section Coverage.

Context (E : SpatialEngine) (R : Runtime).
Variable now : nat → Z.

Abbreviation row := (Row (Geometry E)).
Abbreviation session := (Session (Geometry E)).
Abbreviation database := (Database (Geometry E)).

(** ** Failures of the write handlers *)

(** X1. A POST whose top-level type is not ["FeatureCollection"] is answered
    with 400 and the FeatureCollection message before any feature is looked
    at: the features may be anything, and the database, its sequences
    included, is left as it was. *)
Theorem create_rejects_other_collection_type (k : kind) (data : FeatureCollection)
    (d : database) :
  fc_type data ≠ "FeatureCollection" →
  run_request (create_features E R now k data) d =
    (Raise (HTTPException 400 "Invalid GeoJSON format. Must be a FeatureCollection."), d).
Proof.
  intros Hne. unfold run_request, create_features.
  destruct (String.eqb (fc_type data) "FeatureCollection") eqn:Heq; simpl; [|done].
  by apply String.eqb_eq in Heq.
Qed.

Lemma update_feature_Raise (k : kind) (i : Z) (feature : Feature) (d d' : database) (e : exn) :
  run_request (update_feature E R now k i feature) d = (Raise e, d') → d' = d.
Proof.
  unfold run_request, update_feature, bind, query_first, lift; simpl.
  destruct (table k (stored d) !! i) as [old|]; [|by intros [= _ <-]].
  destruct (check_feature k feature) as [[]|]; [|by intros [= _ <-]].
  destruct (wkt_of R k (f_geometry feature)) as [wkt|]; [|by intros [= _ <-]].
  unfold flush_update; simpl.
  destruct (ST_GeomFromText_srid E wkt 4326); [done|by intros [= _ <-]].
Qed.

Lemma delete_feature_Raise (k : kind) (i : Z) (d d' : database) (e : exn) :
  run_request (delete_feature E k i) d = (Raise e, d') → d' = d.
Proof.
  unfold run_request, delete_feature, bind, query_first; simpl.
  destruct (table k (stored d) !! i) as [old|]; [done|by intros [= _ <-]].
Qed.

(** X2. Whatever makes a create, an update or a delete raise (a wrong tag, a
    missing key, shapely, the engine), no row of the request is committed:
    the stored rows are those from before.  A failed update or delete
    leaves the sequences as they were as well. *)
Theorem failed_write_commits_nothing (k : kind) (d d' : database) (e : exn) :
  (∀ data, run_request (create_features E R now k data) d = (Raise e, d') →
           stored d' = stored d) ∧
  (∀ i feature, run_request (update_feature E R now k i feature) d = (Raise e, d') →
                d' = d) ∧
  (∀ i, run_request (delete_feature E k i) d = (Raise e, d') → d' = d).
Proof.
  split_and!.
  - intros data. unfold run_request, create_features.
    destruct (negb (String.eqb (fc_type data) "FeatureCollection")).
    { by intros [= _ <-]. }
    unfold bind at 1.
    pose proof (create_loop_stored E R now k (fc_features data) [] (SessionLocal d)) as Hst.
    destruct (create_loop E R now k (fc_features data) [] (SessionLocal d)) as [[ids|e'] s'].
    + unfold bind, commit, ret; simpl. done.
    + intros [= _ <-]. exact Hst.
  - intros i feature. apply update_feature_Raise.
  - intros i. apply delete_feature_Raise.
Qed.

(** ** The read handlers *)

(** X3. The two GET handlers and the four spatial queries never change the
    database, whether they return or raise. *)
Theorem reads_change_nothing (k : kind) (i : Z) (lat lon distance : float) (d : database) :
  (run_request (get_features E R k) d).2 = d ∧
  (run_request (get_feature E R k i) d).2 = d ∧
  (run_request (points_within_distance E R lat lon distance) d).2 = d ∧
  (run_request (points_in_polygon E R i) d).2 = d ∧
  (run_request (polygons_containing_point E R lat lon) d).2 = d ∧
  (run_request (overlapping_polygons E R i) d).2 = d.
Proof.
  unfold run_request, get_features, get_feature, points_within_distance, points_in_polygon,
    polygons_containing_point, overlapping_polygons, bind, query_all, query_first,
    query_filter; simpl.
  split_and!.
  - done.
  - by destruct (table k (stored d) !! i).
  - by destruct (select _ _).
  - destruct (polygon_data (stored d) !! i); [|done]. by destruct (select _ _).
  - by destruct (select _ _).
  - destruct (polygon_data (stored d) !! i) as [p|]; [|done].
    destruct (ST_GeomFromText E (ST_AsText E (geom p))); [|done].
    unfold bind; simpl. by destruct (select _ _).
Qed.

(** X4. GET of a whole kind lists every stored row once: the ids listed are
    without repeats and are exactly the ids of the table, and a feature is
    in the listing if and only if GET by id returns it for some id. *)
Theorem get_features_lists_each_row_once (k : kind) (d : database) :
  ∃ listing,
    run_request (get_features E R k) d = (Ok listing, d) ∧
    c_type listing = "FeatureCollection" ∧
    NoDup (listed_ids listing) ∧
    length (c_features listing) = size (table k (stored d)) ∧
    (∀ i, i ∈ listed_ids listing ↔ is_Some (table k (stored d) !! i)) ∧
    (∀ f, f ∈ c_features listing ↔
          ∃ i, run_request (get_feature E R k i) d = (Ok f, d)).
Proof.
  exists (to_collection E R (map_to_list (table k (stored d)))).
  assert (listed_ids (to_collection E R (map_to_list (table k (stored d)))) =
            (map_to_list (table k (stored d))).*1) as Hids.
  { unfold listed_ids, to_collection; simpl. rewrite <- list_fmap_compose.
    by apply list_fmap_ext. }
  split_and!.
  - done.
  - done.
  - rewrite Hids. apply NoDup_fst_map_to_list.
  - unfold to_collection; simpl. by rewrite length_fmap, length_map_to_list.
  - intros i. rewrite Hids, list_elem_of_fmap. split.
    + intros ([i' r] & -> & Hin). apply elem_of_map_to_list in Hin. by exists r.
    + intros [r Hr]. exists (i, r). split; [done|]. by apply elem_of_map_to_list.
  - intros f. unfold to_collection; simpl. rewrite list_elem_of_fmap. split.
    + intros ([i r] & -> & Hin). apply elem_of_map_to_list in Hin. exists i.
      unfold run_request, get_feature, bind, query_first; simpl. by rewrite Hin.
    + intros [i Hget]. revert Hget.
      unfold run_request, get_feature, bind, query_first; simpl.
      destruct (table k (stored d) !! i) as [r|] eqn:Hr; [|done].
      intros [= <-]. exists (i, r). split; [done|]. by apply elem_of_map_to_list.
Qed.


(** ** What a write leaves alone *)

Lemma table_set_table_ne {G} (k k' : kind) (m : gmap Z (Row G)) (t : Tables G) :
  k' ≠ k → table k' (set_table k m t) = table k' t.
Proof. by destruct k, k'. Qed.

Lemma id_seq_advance_seq_ne {G} (k k' : kind) (d0 : Database G) :
  k' ≠ k → id_seq k' (advance_seq k d0) = id_seq k' d0.
Proof. by destruct k, k'. Qed.

Lemma create_loop_frame (k : kind) (features : list Feature) :
  ∀ (created ids : list Z) (s s' : session),
    create_loop E R now k features created s = (Ok ids, s') →
    (∀ i, i < id_seq k (db s) ∨ id_seq k (db s) + Z.of_nat (length features) ≤ i →
          table k (working s') !! i = table k (working s) !! i) ∧
    (∀ k', k' ≠ k → table k' (working s') = table k' (working s)) ∧
    (∀ k', k' ≠ k → id_seq k' (db s') = id_seq k' (db s)) ∧
    id_seq k (db s') = id_seq k (db s) + Z.of_nat (length features).
Proof.
  induction features as [|f rest IH]; intros created ids s s'; simpl.
  { unfold ret. intros [= <- <-]. split_and!; [done..|lia]. }
  unfold bind, lift.
  destruct (check_feature k f) as [[]|]; [|done].
  destruct (wkt_of R k (f_geometry f)) as [wkt|]; [|done].
  match goal with
  | |- context [add_flush E now k ?nm ?descr wkt s] =>
      destruct (add_flush E now k nm descr wkt s) as [[i|] s1] eqn:Hadd
  end; [|done].
  intros Hrest.
  apply add_flush_Ok in Hadd as (-> & Hdb & _ & g & _ & Hwork).
  apply IH in Hrest as (Hout & Hother & Hseqs & Hseq).
  rewrite Hdb, id_seq_advance_seq in Hout, Hseq.
  split_and!.
  - intros i Hi. rewrite Hout by lia.
    rewrite Hwork, table_set_table. apply lookup_insert_ne. lia.
  - intros k' Hk'. rewrite (Hother k' Hk'), Hwork. by apply table_set_table_ne.
  - intros k' Hk'. rewrite (Hseqs k' Hk'), Hdb. by apply id_seq_advance_seq_ne.
  - lia.
Qed.

(** X6. A create that returns adds rows and touches nothing else: every id
    that is not among the returned ids has the row it had (or none, as
    before), the table of the other kind and its sequence are unchanged,
    and the sequence of the kind has moved on by the size of the batch. *)
Theorem create_keeps_other_rows (k : kind) (data : FeatureCollection) (d d' : database)
    (resp : CreatedResponse) :
  run_request (create_features E R now k data) d = (Ok resp, d') →
  (∀ i, i ∉ created_ids resp → table k (stored d') !! i = table k (stored d) !! i) ∧
  (∀ k', k' ≠ k → table k' (stored d') = table k' (stored d) ∧ id_seq k' d' = id_seq k' d) ∧
  id_seq k d' = id_seq k d + Z.of_nat (length (fc_features data)).
Proof.
  intros Hrun. pose proof Hrun as Hok.
  apply create_features_Ok in Hok as [-> _]. revert Hrun.
  unfold run_request, create_features.
  destruct (negb (String.eqb (fc_type data) "FeatureCollection")); [done|].
  unfold bind at 1.
  destruct (create_loop E R now k (fc_features data) [] (SessionLocal d))
    as [[ids|] s'] eqn:Hloop; [|done].
  apply create_loop_frame in Hloop as (Hout & Hother & Hseqs & Hseq).
  unfold bind, commit, ret, close; simpl. intros [= _ <-]; simpl.
  split_and!.
  - intros i Hi. apply Hout. rewrite elem_of_seqZ in Hi. simpl. lia.
  - intros k' Hk'. split; [by apply Hother|].
    specialize (Hseqs k' Hk'). by destruct k'.
  - by destruct k.
Qed.

Lemma update_feature_Ok (k : kind) (i : Z) (feature : Feature) (d d' : database)
    (resp : UpdatedResponse) :
  run_request (update_feature E R now k i feature) d = (Ok resp, d') →
  ∃ old wkt g,
    table k (stored d) !! i = Some old ∧
    check_feature k feature = Ok tt ∧
    wkt_of R k (f_geometry feature) = Ok wkt ∧
    ST_GeomFromText_srid E wkt 4326 = Some g ∧
    resp = mkUpdated "success" i ∧
    d' = mkDatabase
           (set_table k
              (<[i := mkRow
                        (match f_properties feature !! "name" with
                         | Some v => v
                         | None => name old
                         end)
                        (match f_properties feature !! "description" with
                         | Some v => v
                         | None => description old
                         end)
                        (created_at old) (now 0%nat) g]> (table k (stored d)))
              (stored d))
           (point_data_id_seq d) (polygon_data_id_seq d).
Proof.
  unfold run_request, update_feature, bind, query_first, lift; simpl.
  destruct (table k (stored d) !! i) as [old|] eqn:Hold; [|done].
  destruct (check_feature k feature) as [[]|] eqn:Hchk; [|done].
  destruct (wkt_of R k (f_geometry feature)) as [wkt|] eqn:Hwkt; [|done].
  unfold flush_update; simpl.
  destruct (ST_GeomFromText_srid E wkt 4326) as [g|] eqn:Hg; [|done].
  unfold commit, ret, close; simpl. intros [= <- <-]. by exists old, wkt, g.
Qed.

Lemma delete_feature_Ok_db (k : kind) (i : Z) (d d' : database) (resp : DeletedResponse) :
  run_request (delete_feature E k i) d = (Ok resp, d') →
  is_Some (table k (stored d) !! i) ∧
  resp = mkDeleted "success" i ∧
  d' = mkDatabase (set_table k (delete i (table k (stored d))) (stored d))
         (point_data_id_seq d) (polygon_data_id_seq d).
Proof.
  unfold run_request, delete_feature, bind, query_first; simpl.
  destruct (table k (stored d) !! i) as [r|]; [|done].
  unfold flush_delete, commit, ret, close; simpl.
  intros [= <- <-]. eauto.
Qed.

(** ** The sequences stay ahead of the ids *)

Lemma add_flush_ahead (k : kind) (nm descr : jvalue) (wkt : string) (s : session) :
  session_ahead s → session_ahead (add_flush E now k nm descr wkt s).2.
Proof.
  intros Hs. unfold add_flush, bind, utcnow; simpl.
  destruct (ST_GeomFromText_srid E wkt 4326) as [g|]; [|exact Hs].
  destruct (table k (working s) !! id_seq k (db s)) eqn:Hfree; simpl;
    intros k'; destruct (Hs k') as [Hw Hc]; unfold seq_ahead in *; simpl;
    rewrite stored_advance_seq; split; intros i Hi.
  - apply Hw. destruct k, k'; simpl in *; lia.
  - apply Hc. destruct k, k'; simpl in *; lia.
  - destruct k, k'; simpl in *;
      rewrite ?lookup_insert_ne by lia; apply Hw; simpl; lia.
  - apply Hc. destruct k, k'; simpl in *; lia.
Qed.

Lemma create_loop_ahead (k : kind) (features : list Feature) :
  ∀ (created : list Z) (s : session),
    session_ahead s → session_ahead (create_loop E R now k features created s).2.
Proof.
  induction features as [|f rest IH]; intros created s Hs; simpl; [done|].
  unfold bind, lift.
  destruct (check_feature k f) as [[]|]; [|done].
  destruct (wkt_of R k (f_geometry f)) as [wkt|]; [|done].
  match goal with
  | |- context [add_flush E now k ?nm ?descr wkt s] =>
      pose proof (add_flush_ahead k nm descr wkt s Hs) as Hs1;
      destruct (add_flush E now k nm descr wkt s) as [[i|] s1]
  end; simpl in *; [by apply IH|done].
Qed.

(** X7. Every write handler keeps both id sequences ahead of the ids in their
    tables, whether it returns or raises; the empty database starts that
    way, so every database the API reaches has the property that a create
    needs to hand out fresh ids. *)
Theorem writes_keep_well_formed (k : kind) (d : database) :
  well_formed d →
  (∀ data, well_formed (run_request (create_features E R now k data) d).2) ∧
  (∀ i feature, well_formed (run_request (update_feature E R now k i feature) d).2) ∧
  (∀ i, well_formed (run_request (delete_feature E k i) d).2).
Proof.
  intros Hd. split_and!.
  - intros data. unfold run_request, create_features.
    destruct (negb (String.eqb (fc_type data) "FeatureCollection")); [exact Hd|].
    unfold bind at 1.
    assert (session_ahead (SessionLocal d)) as Hs by (intros k'; split; apply Hd).
    apply (create_loop_ahead k (fc_features data) []) in Hs.
    destruct (create_loop E R now k (fc_features data) [] (SessionLocal d)) as [[ids|] s'];
      simpl in *.
    + intros k'. destruct (Hs k') as [Hw _]. by destruct k'.
    + intros k'. by destruct (Hs k') as [_ Hc].
  - intros i feature.
    destruct (run_request (update_feature E R now k i feature) d) as [[resp|e] d'] eqn:Hrun.
    + apply update_feature_Ok in Hrun as (old & wkt & g & Hold & _ & _ & _ & _ & ->).
      simpl. intros k' j Hj. specialize (Hd k' j).
      destruct k, k'; simpl in *; try (by apply Hd);
        (rewrite lookup_insert_ne; [by apply Hd|]);
        intros ->; rewrite Hd in Hold by done; done.
    + apply update_feature_Raise in Hrun as ->. exact Hd.
  - intros i.
    destruct (run_request (delete_feature E k i) d) as [[resp|e] d'] eqn:Hrun.
    + apply delete_feature_Ok_db in Hrun as (_ & _ & ->).
      simpl. intros k' j Hj. specialize (Hd k' j Hj).
      destruct k, k'; simpl in *; try done;
        (destruct (decide (i = j)) as [->|];
           [apply lookup_delete_eq|by rewrite lookup_delete_ne]).
    + apply delete_feature_Raise in Hrun as ->. exact Hd.
Qed.

(** X8. An id is never handed out twice: once a row has been deleted from a
    database whose sequences are ahead, no later create returns its id. *)
Theorem deleted_id_not_reused (k : kind) (i : Z) (data : FeatureCollection)
    (d d1 d2 : database) (gone : DeletedResponse) (resp : CreatedResponse) :
  well_formed d →
  run_request (delete_feature E k i) d = (Ok gone, d1) →
  run_request (create_features E R now k data) d1 = (Ok resp, d2) →
  i ∉ created_ids resp.
Proof.
  intros Hd Hdel Hcreate.
  apply delete_feature_Ok_db in Hdel as ([r Hr] & _ & ->).
  apply create_features_Ok in Hcreate as [-> _]. simpl.
  rewrite elem_of_seqZ. intros [Hlo _].
  assert (id_seq k d ≤ i) as Hge by (by destruct k).
  apply (Hd k) in Hge. congruence.
Qed.

(** ** A write followed by a read *)



(** ** Which error a batch gives *)


(** ** Malformed geometries *)

(** X12. The text of a point is built from the first two items of
    ["coordinates"] alone: further items are ignored and the items need not
    be numbers.  A geometry without ["coordinates"] raises KeyError, a list
    of fewer than two items IndexError, and a number, a boolean or null in
    the place of the list TypeError. *)
Theorem point_wkt_cases (geometry : gmap string jvalue) :
  (geometry !! "coordinates" = None →
   wkt_of R Point geometry = Raise (KeyError (JStr "coordinates"))) ∧
  (∀ l, geometry !! "coordinates" = Some (JList l) →
        (length l < 2)%nat →
        wkt_of R Point geometry = Raise IndexError) ∧
  (∀ c0 c1 more, geometry !! "coordinates" = Some (JList (c0 :: c1 :: more)) →
        wkt_of R Point geometry =
          Ok ("POINT(" +:+ format_value R c0 +:+ " " +:+ format_value R c1 +:+ ")")) ∧
  (∀ v, geometry !! "coordinates" = Some v →
        (v = JNull ∨ (∃ b, v = JBool b) ∨ (∃ n, v = JInt n) ∨ (∃ x, v = JFloat x)) →
        wkt_of R Point geometry = Raise TypeError).
Proof.
  unfold wkt_of, dict_getitem. split_and!.
  - by intros ->.
  - intros l -> Hlen. simpl. destruct l as [|c0 [|c1 more]]; simpl in *; [done|done|lia].
  - by intros c0 c1 more ->.
  - intros v -> [->|[[b ->]|[[n ->]|[x ->]]]]; done.
Qed.

(** X13. An update of an existing row does not turn a malformed geometry into a
    400.  A geometry without a ["type"] raises KeyError (the tag test reads
    the key without a guard), and when the tags are right, whatever the
    building of the geometry text raises (KeyError, IndexError, TypeError,
    shapely's error) is what the update raises.  In both cases the database
    is left as it was. *)
Theorem update_surfaces_geometry_errors (k : kind) (i : Z) (feature : Feature)
    (d : database) :
  is_Some (table k (stored d) !! i) →
  f_type feature = "Feature" →
  (f_geometry feature !! "type" = None →
   run_request (update_feature E R now k i feature) d = (Raise (KeyError (JStr "type")), d)) ∧
  (∀ e, f_geometry feature !! "type" = Some (JStr (type_tag k)) →
        wkt_of R k (f_geometry feature) = Raise e →
        run_request (update_feature E R now k i feature) d = (Raise e, d)).
Proof.
  intros [old Hold] Hty. split.
  - intros Hnone.
    unfold run_request, update_feature, bind, query_first, lift; simpl.
    rewrite Hold. unfold check_feature, dict_getitem.
    by rewrite Hty, Hnone.
  - intros e Hgty Hwkt.
    unfold run_request, update_feature, bind, query_first, lift; simpl.
    by rewrite Hold, (check_feature_valid k feature Hty Hgty), Hwkt.
Qed.

(** ** tests/test.py: the cleanup *)

Lemma delete_feature_existing (k : kind) (i : Z) (d : database) :
  is_Some (table k (stored d) !! i) →
  run_request (delete_feature E k i) d =
    (Ok (mkDeleted "success" i),
     mkDatabase (set_table k (delete i (table k (stored d))) (stored d))
       (point_data_id_seq d) (polygon_data_id_seq d)).
Proof.
  intros [r Hr]. unfold run_request, delete_feature, bind, query_first; simpl.
  by rewrite Hr.
Qed.

Lemma cleanup_fold (k : kind) (l : list FeatureOut) :
  ∀ (answers : list (result DeletedResponse)) (d : database),
    NoDup ((λ f, p_id (o_properties f)) <$> l) →
    (∀ f, f ∈ l → is_Some (table k (stored d) !! p_id (o_properties f))) →
    ∃ d',
      foldl
        (λ acc feature,
           let (r, d1) :=
             run_request (delete_feature E k (p_id (o_properties feature))) acc.2 in
           (acc.1 ++ [r], d1))
        (answers, d) l =
        (answers ++ ((λ f, Ok (mkDeleted "success" (p_id (o_properties f)))) <$> l), d') ∧
      (∀ i, table k (stored d') !! i =
              if decide (i ∈ (λ f, p_id (o_properties f)) <$> l) then None
              else table k (stored d) !! i) ∧
      (∀ k', k' ≠ k → table k' (stored d') = table k' (stored d)) ∧
      point_data_id_seq d' = point_data_id_seq d ∧
      polygon_data_id_seq d' = polygon_data_id_seq d.
Proof.
  induction l as [|f l IH]; intros answers d Hnd Hin; simpl.
  { exists d. rewrite app_nil_r. by split_and!. }
  rewrite fmap_cons in Hnd. apply NoDup_cons in Hnd as [Hfresh Hnd].
  rewrite delete_feature_existing by (apply Hin; by left).
  destruct (IH (answers ++ [Ok (mkDeleted "success" (p_id (o_properties f)))])
              (mkDatabase
                 (set_table k (delete (p_id (o_properties f)) (table k (stored d))) (stored d))
                 (point_data_id_seq d) (polygon_data_id_seq d)) Hnd)
    as (d' & Hfold & Hrows & Hother & Hs1 & Hs2).
  { intros f' Hf'. simpl. rewrite table_set_table.
    rewrite lookup_delete_ne; [apply Hin; by right|].
    intros Heq. apply Hfresh. rewrite Heq.
    by apply (list_elem_of_fmap_2 (λ f, p_id (o_properties f))). }
  exists d'. simpl in *. split_and!; [|..|done|done].
  - rewrite Hfold, <- app_assoc. done.
  - intros i. rewrite Hrows, table_set_table.
    destruct (decide (i = p_id (o_properties f))) as [->|Hne].
    + rewrite lookup_delete_eq.
      rewrite (decide_True (P := _ ∈ _ :: _)) by (by left). by case_decide.
    + rewrite lookup_delete_ne by done.
      case_decide as Hi.
      * rewrite decide_True; [done|by right].
      * rewrite decide_False; [done|]. intros [?|?]%elem_of_cons; done.
  - intros k' Hk'. rewrite (Hother k' Hk'). by apply table_set_table_ne.
Qed.

Lemma cleanup_kind_spec (k : kind) (d : database) :
  ∃ answers d',
    cleanup_kind E R k d = (answers, d') ∧
    table k (stored d') = ∅ ∧
    (∀ k', k' ≠ k → table k' (stored d') = table k' (stored d)) ∧
    point_data_id_seq d' = point_data_id_seq d ∧
    polygon_data_id_seq d' = polygon_data_id_seq d ∧
    length answers = size (table k (stored d)) ∧
    Forall (λ a, ∃ resp, a = Ok resp) answers.
Proof.
  unfold cleanup_kind.
  change (run_request (get_features E R k) d)
    with (Ok (to_collection E R (map_to_list (table k (stored d)))), d).
  cbv iota beta.
  assert ((λ f, p_id (o_properties f)) <$>
            c_features (to_collection E R (map_to_list (table k (stored d)))) =
          (map_to_list (table k (stored d))).*1) as Hids.
  { unfold to_collection; simpl. rewrite <- list_fmap_compose. by apply list_fmap_ext. }
  destruct (cleanup_fold k (c_features (to_collection E R (map_to_list (table k (stored d)))))
              [] d) as (d' & Hfold & Hrows & Hother & Hs1 & Hs2).
  { rewrite Hids. apply NoDup_fst_map_to_list. }
  { intros f Hf. apply (list_elem_of_fmap_2 (λ f, p_id (o_properties f))) in Hf.
    rewrite Hids in Hf. apply list_elem_of_fmap in Hf as ([i r] & -> & Hin).
    apply elem_of_map_to_list in Hin. simpl. eauto. }
  eexists _, d'. split; [exact Hfold|]. split_and!; try done.
  - apply map_eq. intros i. rewrite Hrows, lookup_empty, Hids.
    case_decide as Hi; [done|].
    destruct (table k (stored d) !! i) as [r|] eqn:Hr; [|done].
    exfalso. apply Hi. apply list_elem_of_fmap. exists (i, r). split; [done|].
    by apply elem_of_map_to_list.
  - simpl. unfold to_collection; simpl.
    by rewrite !length_fmap, length_map_to_list.
  - simpl. apply Forall_fmap, Forall_forall. intros f _. simpl. eauto.
Qed.

(** X14. The cleanup of the test script empties the store: every DELETE it
    sends is answered with success (none with 404), there is one per stored
    row, both tables are empty afterwards, and the sequences are where they
    were, so later creates do not reuse the deleted ids. *)
Theorem cleanup_tests_empties_store (d : database) :
  ∃ answers d',
    cleanup_tests E R d = (answers, d') ∧
    point_data (stored d') = ∅ ∧
    polygon_data (stored d') = ∅ ∧
    point_data_id_seq d' = point_data_id_seq d ∧
    polygon_data_id_seq d' = polygon_data_id_seq d ∧
    length answers = (size (point_data (stored d)) + size (polygon_data (stored d)))%nat ∧
    Forall (λ a, ∃ resp, a = Ok resp) answers.
Proof.
  unfold cleanup_tests.
  destruct (cleanup_kind_spec Point d) as (a1 & d1 & -> & He1 & Ho1 & Hp1 & Hq1 & Hl1 & Hf1).
  destruct (cleanup_kind_spec Polygon d1) as (a2 & d2 & -> & He2 & Ho2 & Hp2 & Hq2 & Hl2 & Hf2).
  exists (a1 ++ a2), d2. simpl in *.
  specialize (Ho1 Polygon). specialize (Ho2 Point). simpl in *.
  split_and!.
  - done.
  - rewrite Ho2 by done. exact He1.
  - exact He2.
  - congruence.
  - congruence.
  - rewrite length_app, Hl1, Hl2, Ho1 by done. done.
  - by apply Forall_app.
Qed.

(** ** More on overlapping-polygons and on delete *)


(** X16. A delete succeeds exactly when the id has a row.  It then removes that
    one row: the table has one row less, the table of the other kind and
    both sequences are as before. *)
Theorem delete_removes_one_row (k : kind) (i : Z) (d : database) :
  (is_Some (table k (stored d) !! i) ↔
   ∃ resp d', run_request (delete_feature E k i) d = (Ok resp, d')) ∧
  ∀ resp d',
    run_request (delete_feature E k i) d = (Ok resp, d') →
    resp = mkDeleted "success" i ∧
    S (size (table k (stored d'))) = size (table k (stored d)) ∧
    (∀ k', k' ≠ k → table k' (stored d') = table k' (stored d)) ∧
    point_data_id_seq d' = point_data_id_seq d ∧
    polygon_data_id_seq d' = polygon_data_id_seq d.
Proof.
  split.
  - split.
    + intros Hi. eexists _, _. by apply delete_feature_existing.
    + intros (resp & d' & Hrun). by apply delete_feature_Ok_db in Hrun as [? _].
  - intros resp d' Hrun.
    apply delete_feature_Ok_db in Hrun as ([r Hr] & -> & ->). simpl.
    split_and!; [done| |..|done|done].
    + rewrite table_set_table.
      rewrite <- (insert_delete_id (table k (stored d)) i r Hr) at 2.
      rewrite map_size_insert_None by apply lookup_delete_eq. done.
    + intros k' Hk'. by apply table_set_table_ne.
Qed.

End Coverage.

(** * The further properties on concrete data *)

Lemma create_rejects_other_collection_type_witness :
  run_request
    (create_points text_engine text_runtime clock (mkFeatureCollection "Feature" [unnamed_point]))
    empty_db =
    (Raise (HTTPException 400 "Invalid GeoJSON format. Must be a FeatureCollection."),
     empty_db).
Proof.
  apply (create_rejects_other_collection_type text_engine text_runtime clock Point
           (mkFeatureCollection "Feature" [unnamed_point]) empty_db).
  discriminate.
Defined.

Lemma failed_write_commits_nothing_witness :
  stored (run_request (create_points text_engine text_runtime clock mixed_batch) empty_db).2 =
    stored empty_db.
Proof.
  apply (proj1 (failed_write_commits_nothing text_engine text_runtime clock Point empty_db
                  (run_request (create_points text_engine text_runtime clock mixed_batch)
                     empty_db).2
                  (InvalidFeatureType Point)) mixed_batch).
  by vm_compute.
Defined.


Lemma create_keeps_other_rows_witness :
  (∀ i, i ∉ created_ids (mkCreated "success" [2; 3]) →
        table Point
          (stored (run_request (create_points text_engine text_runtime clock point_batch)
                     one_point_db).2) !! i =
        table Point (stored one_point_db) !! i) ∧
  (∀ k', k' ≠ Point →
         table k'
           (stored (run_request (create_points text_engine text_runtime clock point_batch)
                      one_point_db).2) =
         table k' (stored one_point_db) ∧
         id_seq k'
           (run_request (create_points text_engine text_runtime clock point_batch)
              one_point_db).2 =
         id_seq k' one_point_db) ∧
  id_seq Point
    (run_request (create_points text_engine text_runtime clock point_batch) one_point_db).2 =
    id_seq Point one_point_db + 2.
Proof.
  apply (create_keeps_other_rows text_engine text_runtime clock Point point_batch one_point_db
           (run_request (create_points text_engine text_runtime clock point_batch)
              one_point_db).2
           (mkCreated "success" [2; 3])).
  by vm_compute.
Defined.

Lemma writes_keep_well_formed_witness :
  (∀ data,
     well_formed (run_request (create_points text_engine text_runtime clock data) empty_db).2) ∧
  (∀ i feature,
     well_formed (run_request (update_point text_engine text_runtime clock i feature)
                    empty_db).2) ∧
  (∀ i, well_formed (run_request (delete_point text_engine i) empty_db).2).
Proof.
  apply (writes_keep_well_formed text_engine text_runtime clock Point empty_db).
  intros k i _. destruct k; apply lookup_empty.
Defined.

Lemma deleted_id_not_reused_witness :
  run_request (delete_point text_engine 1) one_point_db =
    (Ok (mkDeleted "success" 1), after_delete_db) ∧
  1 ∉ created_ids (mkCreated "success" [2; 3]).
Proof.
  split; [by vm_compute|].
  apply (deleted_id_not_reused text_engine text_runtime clock Point 1 point_batch one_point_db
           after_delete_db
           (run_request (create_points text_engine text_runtime clock point_batch)
              after_delete_db).2
           (mkDeleted "success" 1) (mkCreated "success" [2; 3])).
  - intros k i Hi. destruct k; simpl in *.
    + apply lookup_singleton_ne. lia.
    + apply lookup_empty.
  - by vm_compute.
  - by vm_compute.
Defined.




Lemma point_wkt_cases_witness :
  wkt_of text_runtime Point
    {[ "type" := JStr "Point"; "coordinates" := JList [JInt 1; JInt 2; JInt 30] ]} =
    Ok "POINT(1 2)" ∧
  wkt_of text_runtime Point {[ "type" := JStr "Point"; "coordinates" := JList [JInt 1] ]} =
    Raise IndexError ∧
  wkt_of text_runtime Point (f_geometry point_without_coordinates) =
    Raise (KeyError (JStr "coordinates")) ∧
  wkt_of text_runtime Point {[ "type" := JStr "Point"; "coordinates" := JInt 7 ]} =
    Raise TypeError.
Proof.
  split_and!.
  - apply (proj1 (proj2 (proj2 (point_wkt_cases text_runtime
             {[ "type" := JStr "Point"; "coordinates" := JList [JInt 1; JInt 2; JInt 30] ]})))
             (JInt 1) (JInt 2) [JInt 30]).
    by vm_compute.
  - apply (proj1 (proj2 (point_wkt_cases text_runtime
             {[ "type" := JStr "Point"; "coordinates" := JList [JInt 1] ]})) [JInt 1]).
    + by vm_compute.
    + simpl. lia.
  - apply (proj1 (point_wkt_cases text_runtime (f_geometry point_without_coordinates))).
    by vm_compute.
  - apply (proj2 (proj2 (proj2 (point_wkt_cases text_runtime
             {[ "type" := JStr "Point"; "coordinates" := JInt 7 ]}))) (JInt 7)).
    + by vm_compute.
    + right; right; left. by exists 7.
Defined.

Lemma update_surfaces_geometry_errors_witness :
  run_request
    (update_point text_engine text_runtime clock 1 (mkFeature "Feature" ∅ ∅)) one_point_db =
    (Raise (KeyError (JStr "type")), one_point_db) ∧
  run_request (update_point text_engine text_runtime clock 1 point_without_coordinates)
    one_point_db =
    (Raise (KeyError (JStr "coordinates")), one_point_db).
Proof.
  split.
  - apply (proj1 (update_surfaces_geometry_errors text_engine text_runtime clock Point 1
                    (mkFeature "Feature" ∅ ∅) one_point_db
                    ltac:(eexists; by vm_compute) eq_refl)).
    by vm_compute.
  - apply (proj2 (update_surfaces_geometry_errors text_engine text_runtime clock Point 1
                    point_without_coordinates one_point_db
                    ltac:(eexists; by vm_compute) eq_refl)
             (KeyError (JStr "coordinates"))); by vm_compute.
Defined.


Lemma delete_removes_one_row_witness :
  mkDeleted "success" 1 = mkDeleted "success" 1 ∧
  S (size (table Point (stored after_delete_db))) = size (table Point (stored one_point_db)) ∧
  (∀ k', k' ≠ Point →
         table k' (stored after_delete_db) = table k' (stored one_point_db)) ∧
  point_data_id_seq after_delete_db = point_data_id_seq one_point_db ∧
  polygon_data_id_seq after_delete_db = polygon_data_id_seq one_point_db.
Proof.
  apply (proj2 (delete_removes_one_row text_engine Point 1 one_point_db)
           (mkDeleted "success" 1) after_delete_db).
  by vm_compute.
Defined.
